(** * Input emulation of pyppeteer ([pyppeteer/input.py])

    A shallow embedding of the classes [Keyboard], [Mouse] and
    [Touchscreen].  The three controllers share one Python object graph: the
    mouse and the touchscreen read [keyboard._modifiers].  We therefore model
    one state record holding the keyboard fields and the mouse fields, and the
    [async] methods as computations in a small state / exception / trace
    monad: every [await self._client.send(...)] appends a [Send] action to the
    trace, every [await asyncio.sleep(...)] a [Sleep] action, and a Python
    exception stops the computation, keeping the state and the trace produced
    up to the [raise].

    Python floats are the kernel's binary64 floats ([PrimFloat.float]), whose
    [add], [sub], [mul] and [div] round to nearest-even as CPython does. *)

From Stdlib Require Import ZArith Bool List Ascii String Lia.
From Stdlib Require Import Floats RelationClasses.
Import ListNotations.
Open Scope string_scope.
Open Scope Z_scope.

(** ** Python values *)

(** Python's exceptions raised by this module. *)
Inductive pyerror : Type :=
| PyppeteerError (msg : string)   (* raise PyppeteerError(f'Unknown key: ...') *)
| KeyError (k : string)           (* set.remove of an absent element *)
| ValueError                      (* round(nan) *)
| OverflowError                   (* round(inf); int / int too large *)
| ZeroDivisionError.              (* int / 0 *)

Inductive result (A : Type) : Type :=
| Ok (a : A)
| Raise (e : pyerror).
Arguments Ok {A} a.
Arguments Raise {A} e.

(** Python's built-in [round(f)] on a float, with no [ndigits]: the nearest
    integer, ties to the even one; [nan] raises [ValueError] and an infinity
    raises [OverflowError]. *)
Definition round_half_even (m : Z) (e : Z) : Z :=
  if 0 <=? e then m * 2 ^ e
  else
    let d := 2 ^ (- e) in
    let q := m / d in
    let r := m mod d in
    if 2 * r <? d then q
    else if d <? 2 * r then q + 1
    else if Z.even q then q else q + 1.

Definition py_round (f : float) : result Z :=
  match Prim2SF f with
  | S754_zero _ => Ok 0
  | S754_infinity _ => Raise OverflowError
  | S754_nan => Raise ValueError
  | S754_finite s m e =>
      let n := round_half_even (Zpos m) e in
      Ok (if s then - n else n)
  end.

(** The exact rational [i / n] of two nonzero ints, rounded once to the
    nearest binary64 (ties to even, subnormals included): the division of
    the kernel's float specification applied to the integer mantissas [|i|]
    and [|n|] with exponent 0. *)
Definition truediv_finite (i n : Z) : float :=
  SF2Prim (SFdiv 53 1024 (S754_finite (i <? 0) (Z.to_pos (Z.abs i)) 0)
                         (S754_finite (n <? 0) (Z.to_pos (Z.abs n)) 0)).

(** Python's true division [i / n] of two ints ([long_true_divide]): the
    correctly rounded exact quotient; [ZeroDivisionError] when [n = 0],
    a signed zero when [i = 0], and [OverflowError] when the quotient rounds
    beyond the largest float, that is when [|i / n| >= 2^1024 - 2^970]. *)
Definition int_truediv (i n : Z) : result float :=
  if n =? 0 then Raise ZeroDivisionError
  else if i =? 0 then Ok (if n <? 0 then (-0)%float else 0%float)
  else if Z.abs n * (2 ^ 1025 - 2 ^ 971) <=? 2 * Z.abs i then Raise OverflowError
  else Ok (truediv_finite i n).

(** Python sets of strings ([self._pressedKeys]). *)
Definition set_mem (x : string) (s : list string) : bool :=
  existsb (String.eqb x) s.

Definition set_add (x : string) (s : list string) : list string :=
  if set_mem x s then s else x :: s.

(** [s.remove(x)]: raises [KeyError(x)] when [x] is absent. *)
Definition set_remove (x : string) (s : list string) : result (list string) :=
  if set_mem x s then Ok (filter (fun y => negb (String.eqb x y)) s)
  else Raise (KeyError x).

(** Truthiness of Python values used in [if] tests. *)
Definition truthy_str (s : string) : bool := negb (String.eqb s "").
Definition truthy_int (z : Z) : bool := negb (z =? 0).

(** ** The key-layout table ([pyppeteer.us_keyboard_layout.keyDefinitions])

    A Python dict from key names to dicts with optional fields.  A field
    missing from the dict is [None]. *)
Record keydef : Type := mkKeydef {
  def_key : option string;
  def_shiftKey : option string;
  def_keyCode : option Z;
  def_shiftKeyCode : option Z;
  def_code : option string;
  def_location : option Z;
  def_text : option string;
  def_shiftText : option string
}.

(** A dict is falsy when it has no field. *)
Definition keydef_truthy (d : keydef) : bool :=
  match d with
  | mkKeydef None None None None None None None None => false
  | _ => true
  end.

Definition layout := list (string * keydef).

(** [keyDefinitions.get(k)]; dict keys are unique, so the first entry wins. *)
Fixpoint layout_get (tbl : layout) (k : string) : option keydef :=
  match tbl with
  | [] => None
  | (k', d) :: tl => if String.eqb k k' then Some d else layout_get tl k
  end.

(** [k in keyDefinitions]. *)
Definition layout_has (tbl : layout) (k : string) : bool :=
  match layout_get tbl k with Some _ => true | None => false end.

(** [dict.get(field)] tested for truthiness. *)
Definition get_truthy_str (o : option string) : option string :=
  match o with Some s => if truthy_str s then Some s else None | None => None end.
Definition get_truthy_int (o : option Z) : option Z :=
  match o with Some z => if truthy_int z then Some z else None | None => None end.

(** The dict built by [_keyDescriptionForString]. *)
Record description : Type := mkDescription {
  desc_key : string;
  desc_keyCode : Z;
  desc_code : string;
  desc_text : string;
  desc_location : Z
}.

(** [Keyboard._modifierBit]. *)
Definition modifierBit (key : string) : Z :=
  if String.eqb key "Alt" then 1
  else if String.eqb key "Control" then 2
  else if String.eqb key "Meta" then 4
  else if String.eqb key "Shift" then 8
  else 0.

(** [Keyboard._keyDescriptionForString], reading [self._modifiers] as
    [modifiers]; it reads no other state and writes none. *)
Definition keyDescriptionForString (keyDefinitions : layout) (modifiers : Z)
    (keyString : string) : result description :=
  let shift := Z.land modifiers 8 in
  match layout_get keyDefinitions keyString with
  | None => Raise (PyppeteerError ("Unknown key: " ++ keyString))
  | Some definition =>
    if negb (keydef_truthy definition)
    then Raise (PyppeteerError ("Unknown key: " ++ keyString))
    else
      let key := match def_key definition with Some k => k | None => "" end in
      let key := match get_truthy_str (def_shiftKey definition) with
                 | Some k => if truthy_int shift then k else key
                 | None => key end in
      let keyCode := match def_keyCode definition with Some c => c | None => 0 end in
      let keyCode := match get_truthy_int (def_shiftKeyCode definition) with
                     | Some c => if truthy_int shift then c else keyCode
                     | None => keyCode end in
      let code := match def_code definition with Some c => c | None => "" end in
      let location := match def_location definition with Some l => l | None => 0 end in
      let text := if (String.length key =? 1)%nat then key else "" in
      let text := match def_text definition with Some t => t | None => text end in
      let text := match get_truthy_str (def_shiftText definition) with
                  | Some t => if truthy_int shift then t else text
                  | None => text end in
      let text := if truthy_int (Z.land modifiers (Z.lnot 8)) then "" else text in
      Ok (mkDescription key keyCode code text location)
  end.

(** ** Protocol messages and the trace *)

Record keyDownParams : Type := mkKeyDownParams {
  kd_type : string;
  kd_modifiers : Z;
  kd_windowsVirtualKeyCode : Z;
  kd_code : string;
  kd_key : string;
  kd_text : string;
  kd_unmodifiedText : string;
  kd_autoRepeat : bool;
  kd_location : Z;
  kd_isKeypad : bool
}.

Inductive message : Type :=
| KeyDownEv (p : keyDownParams)
| KeyUpEv (modifiers : Z) (key : string) (windowsVirtualKeyCode : Z)
    (code : string) (location : Z)
| CharEv (modifiers : Z) (text key unmodifiedText : string)
| MouseMovedEv (button : string) (x y : Z) (modifiers : Z)
| MouseButtonEv (type button : string) (x y : float) (modifiers clickCount : Z)
| TouchEv (type : string) (touchPoints : list (Z * Z)) (modifiers : Z).

Inductive action : Type :=
| Send (method : string) (params : message)
| SleepMs (delay : Z).   (* await asyncio.sleep(delay / 1000) *)

(** The fields of the three controllers. *)
Record state : Type := mkState {
  kb_modifiers : Z;               (* Keyboard._modifiers *)
  kb_pressedKeys : list string;   (* Keyboard._pressedKeys *)
  mouse_x : float;                (* Mouse._x *)
  mouse_y : float;                (* Mouse._y *)
  mouse_button : string           (* Mouse._button *)
}.

Definition init_state : state := mkState 0 [] 0%float 0%float "none".

Definition set_modifiers (m : Z) (st : state) : state :=
  mkState m (kb_pressedKeys st) (mouse_x st) (mouse_y st) (mouse_button st).
Definition set_pressedKeys (p : list string) (st : state) : state :=
  mkState (kb_modifiers st) p (mouse_x st) (mouse_y st) (mouse_button st).
Definition set_position (x y : float) (st : state) : state :=
  mkState (kb_modifiers st) (kb_pressedKeys st) x y (mouse_button st).
Definition set_button (b : string) (st : state) : state :=
  mkState (kb_modifiers st) (kb_pressedKeys st) (mouse_x st) (mouse_y st) b.

(** ** The state / exception / trace monad *)

Definition M (A : Type) : Type := state -> result A * state * list action.

Definition ret {A} (a : A) : M A := fun st => (Ok a, st, []).

Definition bind {A B} (m : M A) (k : A -> M B) : M B :=
  fun st =>
    match m st with
    | (Ok a, st1, tr1) =>
        match k a st1 with (r, st2, tr2) => (r, st2, (tr1 ++ tr2)%list) end
    | (Raise e, st1, tr1) => (Raise e, st1, tr1)
    end.

Notation "x <- m ;; k" := (bind m (fun x => k))
  (at level 61, m at next level, right associativity).
Notation "m ;;; k" := (bind m (fun _ : unit => k))
  (at level 61, right associativity).

Definition get : M state := fun st => (Ok st, st, []).
Definition put (st' : state) : M unit := fun _ => (Ok tt, st', []).
Definition raise {A} (e : pyerror) : M A := fun st => (Raise e, st, []).
Definition lift {A} (r : result A) : M A :=
  match r with Ok a => ret a | Raise e => raise e end.
(** [await self._client.send(method, params)]; the channel acknowledges. *)
Definition send (method : string) (p : message) : M unit :=
  fun st => (Ok tt, st, [Send method p]).
Definition sleep_ms (d : Z) : M unit := fun st => (Ok tt, st, [SleepMs d]).

Fixpoint for_each {A} (l : list A) (body : A -> M unit) : M unit :=
  match l with
  | [] => ret tt
  | x :: tl => body x ;;; for_each tl body
  end.

(** Python's [range(lo, hi)]. *)
Definition range (lo hi : Z) : list Z :=
  map (fun n => lo + Z.of_nat n) (seq 0 (Z.to_nat (hi - lo))).

(** The [options] dict of the keyboard methods, restricted to the keys they
    read; a missing key is [None]. *)
Record key_options : Type := mkKeyOptions {
  opt_text : option string;
  opt_delay : option Z
}.

Definition no_options : key_options := mkKeyOptions None None.

(** [options.get('delay')] tested for truthiness. *)
Definition delay_of (o : key_options) : option Z := get_truthy_int (opt_delay o).

(** ** The controllers *)

Section Controllers.

Variable keyDefinitions : layout.

(** [self._keyDescriptionForString(key)] inside a method. *)
Definition describe (key : string) : M description :=
  st <- get ;;
  lift (keyDescriptionForString keyDefinitions (kb_modifiers st) key).

(** [Keyboard.down]. *)
Definition down (key : string) (options : key_options) : M unit :=
  description <- describe key ;;
  st <- get ;;
  let autoRepeat := set_mem (desc_key description) (kb_pressedKeys st) in
  put (set_pressedKeys (set_add (desc_code description) (kb_pressedKeys st)) st) ;;;
  st <- get ;;
  put (set_modifiers (Z.lor (kb_modifiers st) (modifierBit (desc_key description))) st) ;;;
  let text := match opt_text options with
              | Some t => t
              | None => desc_text description end in
  st <- get ;;
  send "Input.dispatchKeyEvent" (KeyDownEv (mkKeyDownParams
    (if truthy_str text then "keyDown" else "rawKeyDown")
    (kb_modifiers st)
    (desc_keyCode description)
    (desc_code description)
    (desc_key description)
    text
    text
    autoRepeat
    (desc_location description)
    (desc_location description =? 3))).

(** [Keyboard.up]. *)
Definition up (key : string) : M unit :=
  description <- describe key ;;
  st <- get ;;
  put (set_modifiers
         (Z.land (kb_modifiers st) (Z.lnot (modifierBit (desc_key description)))) st) ;;;
  st <- get ;;
  pressed <- lift (set_remove (desc_code description) (kb_pressedKeys st)) ;;
  put (set_pressedKeys pressed st) ;;;
  st <- get ;;
  send "Input.dispatchKeyEvent"
    (KeyUpEv (kb_modifiers st) (desc_key description) (desc_keyCode description)
       (desc_code description) (desc_location description)).

(** [Keyboard.sendCharacter]. *)
Definition sendCharacter (char : string) : M unit :=
  st <- get ;;
  send "Input.dispatchKeyEvent" (CharEv (kb_modifiers st) char char char).

(** [Keyboard.press]. *)
Definition press (key : string) (options : key_options) : M unit :=
  down key options ;;;
  match delay_of options with Some d => sleep_ms d | None => ret tt end ;;;
  up key.

(** [Keyboard.type]; [text] is iterated character by character. *)
Fixpoint type_chars (text : string) (delay : Z) : M unit :=
  match text with
  | EmptyString => ret tt
  | String c rest =>
      let char := String c EmptyString in
      (if layout_has keyDefinitions "char"
       then press char (mkKeyOptions None (Some delay))
       else sendCharacter char) ;;;
      (if truthy_int delay then sleep_ms delay else ret tt) ;;;
      type_chars rest delay
  end.

Definition type (text : string) (options : key_options) : M unit :=
  let delay := match delay_of options with Some d => d | None => 0 end in
  type_chars text delay.

(** One iteration of the loop of [Mouse.move]: the [i]-th intermediate
    point, from the origin [(fromX, fromY)] towards [(self._x, self._y)]. *)
Definition move_step (fromX fromY : float) (steps i : Z) : M unit :=
  st <- get ;;
  qx <- lift (int_truediv i steps) ;;
  x <- lift (py_round (PrimFloat.add fromX
               (PrimFloat.mul (PrimFloat.sub (mouse_x st) fromX) qx))) ;;
  qy <- lift (int_truediv i steps) ;;
  y <- lift (py_round (PrimFloat.add fromY
               (PrimFloat.mul (PrimFloat.sub (mouse_y st) fromY) qy))) ;;
  st <- get ;;
  send "Input.dispatchMouseEvent"
    (MouseMovedEv (mouse_button st) x y (kb_modifiers st)).

(** [Mouse.move]; [steps_opt] is [options.get('steps')], defaulting to 1. *)
Definition move (x y : float) (steps_opt : option Z) : M unit :=
  st <- get ;;
  let fromX := mouse_x st in
  let fromY := mouse_y st in
  put (set_position x y st) ;;;
  let steps := match steps_opt with Some s => s | None => 1 end in
  for_each (range 1 (steps + 1)) (move_step fromX fromY steps).

(** The [options] dict of the mouse button methods, restricted to the keys
    they read. *)
Record mouse_options : Type := mkMouseOptions {
  mopt_button : option string;
  mopt_clickCount : option Z;
  mopt_delay : option Z
}.

(** [options.get('button', 'left')]. *)
Definition button_of (o : mouse_options) : string :=
  match mopt_button o with Some b => b | None => "left" end.

(** [options.get('clickCount') or 1]. *)
Definition clickCount_of (o : mouse_options) : Z :=
  match get_truthy_int (mopt_clickCount o) with Some c => c | None => 1 end.

(** [Mouse.down]. *)
Definition mouse_down (options : mouse_options) : M unit :=
  st <- get ;;
  put (set_button (button_of options) st) ;;;
  st <- get ;;
  send "Input.dispatchMouseEvent"
    (MouseButtonEv "mousePressed" (mouse_button st) (mouse_x st) (mouse_y st)
       (kb_modifiers st) (clickCount_of options)).

(** [Mouse.up]: the released button is the requested one, not the active one. *)
Definition mouse_up (options : mouse_options) : M unit :=
  st <- get ;;
  put (set_button "none" st) ;;;
  st <- get ;;
  send "Input.dispatchMouseEvent"
    (MouseButtonEv "mouseReleased" (button_of options) (mouse_x st) (mouse_y st)
       (kb_modifiers st) (clickCount_of options)).

(** [Mouse.click]; its dwell is [asyncio.sleep(delay)], in seconds, that is
    [delay * 1000] milliseconds. *)
Definition click (x y : float) (options : mouse_options) : M unit :=
  move x y None ;;;
  mouse_down options ;;;
  match get_truthy_int (mopt_delay options) with
  | Some d => sleep_ms (d * 1000)
  | None => ret tt
  end ;;;
  mouse_up options.

(** [Touchscreen.tap]. *)
Definition tap (x y : float) : M unit :=
  rx <- lift (py_round x) ;;
  ry <- lift (py_round y) ;;
  let touchPoints := [(rx, ry)] in
  st <- get ;;
  send "Input.dispatchTouchEvent" (TouchEv "touchStart" touchPoints (kb_modifiers st)) ;;;
  st <- get ;;
  send "Input.dispatchTouchEvent" (TouchEv "touchEnd" [] (kb_modifiers st)).

End Controllers.

(** ** A sample layout

    Entries in the shape of [us_keyboard_layout.keyDefinitions]: the
    generic Shift key and both physical Shift keys share the label
    ["Shift"], letters have a shifted label, the Enter key a literal text and
    keypad keys location 3.  The table has no ["char"] entry. *)
Definition kd (key shiftKey : option string) (keyCode shiftKeyCode : option Z)
    (code : option string) (location : option Z) (text : option string) : keydef :=
  mkKeydef key shiftKey keyCode shiftKeyCode code location text None.

Definition sample_layout : layout := [
  ("ShiftLeft", kd (Some "Shift") None (Some 16) None (Some "ShiftLeft") (Some 1) None);
  ("ShiftRight", kd (Some "Shift") None (Some 16) None (Some "ShiftRight") (Some 2) None);
  ("Shift", kd (Some "Shift") None (Some 16) None (Some "ShiftLeft") (Some 1) None);
  ("Alt", kd (Some "Alt") None (Some 18) None (Some "AltLeft") (Some 1) None);
  ("Control", kd (Some "Control") None (Some 17) None (Some "ControlLeft") (Some 1) None);
  ("Meta", kd (Some "Meta") None (Some 91) None (Some "MetaLeft") (Some 1) None);
  ("Enter", kd (Some "Enter") None (Some 13) None (Some "Enter") None (Some (String "013"%char EmptyString)));
  ("KeyA", kd (Some "a") (Some "A") (Some 65) None (Some "KeyA") None None);
  ("a", kd (Some "a") None (Some 65) None (Some "KeyA") None None);
  ("Numpad5", kd (Some "5") (Some "Clear") (Some 101) (Some 12) (Some "Numpad5") (Some 3) None)
].

(** ** Unfolding the monad *)

Ltac run_step :=
  cbv [down up press type sendCharacter move move_step tap describe
       mouse_down mouse_up click
       bind get put send sleep_ms lift ret raise for_each] ;
  cbv beta iota zeta.

(** ** Lemmas about the bit arithmetic on [self._modifiers] *)

Lemma land_lor_lnot (m b : Z) :
  Z.land (Z.lor m b) (Z.lnot b) = Z.land m (Z.lnot b).
Proof.
  apply Z.bits_inj'; intros n Hn.
  rewrite !Z.land_spec, Z.lor_spec, Z.lnot_spec by exact Hn.
  destruct (Z.testbit m n), (Z.testbit b n); reflexivity.
Qed.

Lemma land_lnot_disjoint (m b : Z) :
  Z.land m b = 0 -> Z.land m (Z.lnot b) = m.
Proof.
  intros H; apply Z.bits_inj'; intros n Hn.
  rewrite Z.land_spec, Z.lnot_spec by exact Hn.
  assert (Hb : Z.testbit (Z.land m b) n = false) by (rewrite H; apply Z.testbit_0_l).
  rewrite Z.land_spec in Hb.
  destruct (Z.testbit m n), (Z.testbit b n); try reflexivity; discriminate.
Qed.

Lemma set_mem_add (x : string) (s : list string) : set_mem x (set_add x s) = true.
Proof.
  unfold set_add; destruct (set_mem x s) eqn:E; [exact E|].
  simpl; rewrite String.eqb_refl; reflexivity.
Qed.

(** [up] on a key whose hardware code is not pressed clears the modifier bit
    of its label, then raises [KeyError] before dispatching. *)
Lemma up_unpressed (tbl : layout) (key : string) (st : state) (d : description) :
  keyDescriptionForString tbl (kb_modifiers st) key = Ok d ->
  set_mem (desc_code d) (kb_pressedKeys st) = false ->
  up tbl key st =
    (Raise (KeyError (desc_code d)),
     set_modifiers (Z.land (kb_modifiers st) (Z.lnot (modifierBit (desc_key d)))) st,
     []).
Proof.
  intros Hd Hm. run_step. rewrite Hd. cbv beta iota zeta.
  unfold set_remove. simpl. rewrite Hm. reflexivity.
Qed.

(** ** Unknown keys, releasing unpressed keys, the key-down event *)

(** C3: for a key name absent from the layout table, [down], [up] and
    [press] raise [PyppeteerError('Unknown key: ...')] (the unknown-key error)
    before any dispatch, with the modifiers and the pressed keys (the whole
    state) left as they were. *)
Theorem unknown_key_raises_without_effect (tbl : layout) (key : string)
    (Habsent : layout_get tbl key = None) :
  forall (st : state) (options : key_options),
    down tbl key options st = (Raise (PyppeteerError ("Unknown key: " ++ key)), st, []) /\
    up tbl key st = (Raise (PyppeteerError ("Unknown key: " ++ key)), st, []) /\
    press tbl key options st = (Raise (PyppeteerError ("Unknown key: " ++ key)), st, []).
Proof.
  intros st options.
  assert (Hd : keyDescriptionForString tbl (kb_modifiers st) key =
               Raise (PyppeteerError ("Unknown key: " ++ key)))
    by (unfold keyDescriptionForString; rewrite Habsent; reflexivity).
  repeat split; run_step; rewrite Hd; reflexivity.
Qed.

Lemma unknown_key_raises_without_effect_witness :
  layout_get sample_layout "Frobnicate" = None /\
  down sample_layout "Frobnicate" no_options init_state =
    (Raise (PyppeteerError ("Unknown key: " ++ "Frobnicate")), init_state, []).
Proof.
  split; [reflexivity|].
  exact (proj1 (unknown_key_raises_without_effect sample_layout "Frobnicate"
                  eq_refl init_state no_options)).
Defined.

(** C4: for a key name of the table whose hardware code is not in the
    pressed set, [up] fails with [KeyError] (the invariant violation of
    [self._pressedKeys.remove]) and dispatches nothing. *)
Theorem up_unpressed_raises (tbl : layout) (key : string) (st : state)
    (d : description)
    (Hd : keyDescriptionForString tbl (kb_modifiers st) key = Ok d)
    (Hnot : set_mem (desc_code d) (kb_pressedKeys st) = false) :
  exists st', up tbl key st = (Raise (KeyError (desc_code d)), st', []).
Proof.
  eexists. exact (up_unpressed tbl key st d Hd Hnot).
Qed.

Lemma up_unpressed_raises_witness :
  keyDescriptionForString sample_layout 0 "Enter" =
    Ok (mkDescription "Enter" 13 "Enter" (String "013"%char EmptyString) 0) /\
  exists st', up sample_layout "Enter" init_state =
                (Raise (KeyError "Enter"), st', []).
Proof.
  split; [reflexivity|].
  exact (up_unpressed_raises sample_layout "Enter" init_state
           (mkDescription "Enter" 13 "Enter" (String "013"%char EmptyString) 0)
           eq_refl eq_refl).
Defined.

(** C8: for a key name of the table, [down] dispatches exactly one key event:
    its text is the [text] option when given and the resolved text
    otherwise, its type is ["rawKeyDown"] exactly when that text is empty and
    ["keyDown"] otherwise, and it carries the current modifiers (with the
    key's own bit set), the virtual key code, hardware code, label, the text
    as text and unmodified text, the autoRepeat flag, the location, and
    [isKeypad] true exactly when the location is 3. *)
Theorem down_dispatches_one_key_event (tbl : layout) (key : string)
    (options : key_options) (st : state) (d : description)
    (Hd : keyDescriptionForString tbl (kb_modifiers st) key = Ok d) :
  let text := match opt_text options with Some t => t | None => desc_text d end in
  let modifiers := Z.lor (kb_modifiers st) (modifierBit (desc_key d)) in
  down tbl key options st =
    (Ok tt,
     set_modifiers modifiers (set_pressedKeys (set_add (desc_code d) (kb_pressedKeys st)) st),
     [Send "Input.dispatchKeyEvent" (KeyDownEv (mkKeyDownParams
        (if String.eqb text "" then "rawKeyDown" else "keyDown")
        modifiers (desc_keyCode d) (desc_code d) (desc_key d) text text
        (set_mem (desc_key d) (kb_pressedKeys st))
        (desc_location d) (desc_location d =? 3)))]).
Proof.
  intros text modifiers. run_step. rewrite Hd. cbv beta iota zeta.
  subst text modifiers. unfold truthy_str.
  destruct (String.eqb
              match opt_text options with Some t => t | None => desc_text d end "");
    reflexivity.
Qed.

Lemma down_dispatches_one_key_event_witness :
  keyDescriptionForString sample_layout 0 "KeyA" = Ok (mkDescription "a" 65 "KeyA" "a" 0) /\
  down sample_layout "KeyA" no_options init_state =
    (Ok tt, mkState 0 ["KeyA"] 0%float 0%float "none",
     [Send "Input.dispatchKeyEvent" (KeyDownEv (mkKeyDownParams
        "keyDown" 0 65 "KeyA" "a" "a" "a" false 0 false))]).
Proof.
  split; [reflexivity|].
  exact (down_dispatches_one_key_event sample_layout "KeyA" no_options init_state
           (mkDescription "a" 65 "KeyA" "a" 0) eq_refl).
Defined.

(** ** Releasing an unpressed modifier key *)

(** C10 (counterexample): on a fresh keyboard, [up('Shift')] fails with no
    dispatch and leaves the modifiers unchanged, since the Shift bit was
    already clear. *)
Lemma up_unpressed_shift_fresh_keyboard_unchanged :
  up sample_layout "Shift" init_state = (Raise (KeyError "ShiftLeft"), init_state, []) /\
  kb_modifiers init_state = 0.
Proof. split; reflexivity. Qed.

(** C10 (amended): when [up] is invoked for a key of the table whose
    hardware code is not pressed, the modifier bit of its label is cleared
    before [KeyError] is raised, with no dispatch; the modifiers therefore
    change exactly when that bit was set. *)
Theorem up_unpressed_clears_modifier_bit (tbl : layout) (key : string)
    (st : state) (d : description)
    (Hd : keyDescriptionForString tbl (kb_modifiers st) key = Ok d)
    (Hnot : set_mem (desc_code d) (kb_pressedKeys st) = false) :
  let modifiers' := Z.land (kb_modifiers st) (Z.lnot (modifierBit (desc_key d))) in
  up tbl key st = (Raise (KeyError (desc_code d)), set_modifiers modifiers' st, []) /\
  (modifiers' <> kb_modifiers st <-> Z.land (kb_modifiers st) (modifierBit (desc_key d)) <> 0).
Proof.
  intros modifiers'. split; [exact (up_unpressed tbl key st d Hd Hnot)|].
  subst modifiers'. set (m := kb_modifiers st). set (b := modifierBit (desc_key d)).
  split; intros H E; apply H.
  - apply land_lnot_disjoint; exact E.
  - rewrite <- E, <- Z.land_assoc, (Z.land_comm (Z.lnot b) b), Z.land_lnot_diag.
    apply Z.land_0_r.
Qed.

(** After [down('ShiftLeft')], [up('ShiftRight')] fails and clears the Shift
    bit. *)
Lemma up_unpressed_clears_modifier_bit_witness :
  keyDescriptionForString sample_layout 8 "ShiftRight" =
    Ok (mkDescription "Shift" 16 "ShiftRight" "" 2) /\
  up sample_layout "ShiftRight" (mkState 8 ["ShiftLeft"] 0%float 0%float "none") =
    (Raise (KeyError "ShiftRight"), mkState 0 ["ShiftLeft"] 0%float 0%float "none", []) /\
  (0 <> 8 <-> Z.land 8 8 <> 0).
Proof.
  split; [reflexivity|].
  exact (up_unpressed_clears_modifier_bit sample_layout "ShiftRight"
           (mkState 8 ["ShiftLeft"] 0%float 0%float "none")
           (mkDescription "Shift" 16 "ShiftRight" "" 2) eq_refl eq_refl).
Defined.

(** ** autoRepeat *)

(** [down] computes [autoRepeat] as membership of the resolved label in the
    set of pressed hardware codes. *)
Lemma down_autoRepeat_is_label_in_codes (tbl : layout) (key : string)
    (options : key_options) (st : state) (d : description) :
  keyDescriptionForString tbl (kb_modifiers st) key = Ok d ->
  exists st' p,
    down tbl key options st = (Ok tt, st', [Send "Input.dispatchKeyEvent" (KeyDownEv p)]) /\
    kd_autoRepeat p = set_mem (desc_key d) (kb_pressedKeys st) /\
    kb_pressedKeys st' = set_add (desc_code d) (kb_pressedKeys st).
Proof.
  intros Hd. do 2 eexists. run_step. rewrite Hd. cbv beta iota zeta.
  split; [reflexivity|]. split; reflexivity.
Qed.

(** C1 (failing input): on a fresh keyboard, [down('KeyA')] twice dispatches
    two key-down events that both have [autoRepeat] false: the second call
    looks up the label ["a"] among the pressed hardware codes [{"KeyA"}]. *)
Theorem down_KeyA_twice_autoRepeat_false :
  exists st' p1 p2,
    (down sample_layout "KeyA" no_options ;;; down sample_layout "KeyA" no_options)
      init_state =
    (Ok tt, st', [Send "Input.dispatchKeyEvent" (KeyDownEv p1);
                  Send "Input.dispatchKeyEvent" (KeyDownEv p2)]) /\
    kd_key p1 = "a" /\ kd_key p2 = "a" /\
    kd_autoRepeat p1 = false /\ kd_autoRepeat p2 = false.
Proof.
  do 3 eexists. split; [vm_compute; reflexivity|].
  repeat split; reflexivity.
Qed.

(** ** Pressing and releasing a modifier key *)

(** An entry with a label and no shifted label resolves to that label and to
    its hardware code under every modifier state. *)
Lemma resolve_unshifted_entry (tbl : layout) (key L : string) (def : keydef) (m : Z) :
  layout_get tbl key = Some def ->
  keydef_truthy def = true ->
  def_key def = Some L ->
  get_truthy_str (def_shiftKey def) = None ->
  exists d, keyDescriptionForString tbl m key = Ok d /\
            desc_key d = L /\
            desc_code d = match def_code def with Some c => c | None => "" end.
Proof.
  intros Hget Htr Hkey Hns. unfold keyDescriptionForString.
  rewrite Hget, Htr, Hkey, Hns. cbv zeta. simpl negb. cbv iota.
  eexists; split; [reflexivity|]. split; reflexivity.
Qed.

(** C6 (counterexample): with Shift already held (after [down('Shift')]), a
    further [down('Shift')] then [up('Shift')] leaves the modifiers at 0,
    not at their value 8 before that [down]. *)
Lemma shift_held_down_up_not_restored :
  exists st1 st2 tr1 tr2,
    down sample_layout "Shift" no_options init_state = (Ok tt, st1, tr1) /\
    kb_modifiers st1 = 8 /\
    (down sample_layout "Shift" no_options ;;; up sample_layout "Shift") st1 =
      (Ok tt, st2, tr2) /\
    kb_modifiers st2 = 0.
Proof.
  do 4 eexists. split; [vm_compute; reflexivity|].
  split; [reflexivity|]. split; [vm_compute; reflexivity|]. reflexivity.
Qed.

(** C6 (amended): for a key whose entry has a label L and no shifted label
    (as the Alt, Control, Meta and Shift entries), [down] then [up] succeeds
    and leaves the modifiers equal to their value m before the [down] with
    the bit of L cleared and every other bit unchanged; so they are restored
    to m exactly when that bit was clear in m. *)
Theorem down_up_modifier_clears_bit (tbl : layout) (key L : string)
    (def : keydef) (options : key_options) (st : state)
    (Hget : layout_get tbl key = Some def)
    (Htruthy : keydef_truthy def = true)
    (Hkey : def_key def = Some L)
    (Hnoshift : get_truthy_str (def_shiftKey def) = None) :
  exists st' tr,
    (down tbl key options ;;; up tbl key) st = (Ok tt, st', tr) /\
    kb_modifiers st' = Z.land (kb_modifiers st) (Z.lnot (modifierBit L)) /\
    (Z.land (kb_modifiers st) (modifierBit L) = 0 -> kb_modifiers st' = kb_modifiers st).
Proof.
  destruct (resolve_unshifted_entry tbl key L def (kb_modifiers st) Hget Htruthy Hkey Hnoshift)
    as [d1 [H1 [K1 C1]]].
  destruct (resolve_unshifted_entry tbl key L def
              (Z.lor (kb_modifiers st) (modifierBit L)) Hget Htruthy Hkey Hnoshift)
    as [d2 [H2 [K2 C2]]].
  cbv [down up describe bind get put send lift ret raise set_modifiers set_pressedKeys].
  cbv beta iota zeta. rewrite H1. cbv beta iota zeta.
  cbn [kb_modifiers kb_pressedKeys mouse_x mouse_y mouse_button].
  rewrite K1, H2. cbv beta iota zeta.
  cbn [kb_modifiers kb_pressedKeys mouse_x mouse_y mouse_button].
  assert (Hm : set_mem (desc_code d2) (set_add (desc_code d1) (kb_pressedKeys st)) = true)
    by (rewrite C2, <- C1; apply set_mem_add).
  unfold set_remove; rewrite Hm. cbv beta iota zeta.
  eexists _, _. split; [reflexivity|].
  cbn [kb_modifiers kb_pressedKeys mouse_x mouse_y mouse_button].
  rewrite K2, land_lor_lnot. split; [reflexivity|].
  apply land_lnot_disjoint.
Qed.

Lemma down_up_modifier_clears_bit_witness :
  exists st' tr,
    (down sample_layout "Control" no_options ;;; up sample_layout "Control")
      (set_modifiers 9 init_state) = (Ok tt, st', tr) /\
    kb_modifiers st' = Z.land 9 (Z.lnot (modifierBit "Control")) /\
    (Z.land 9 (modifierBit "Control") = 0 -> kb_modifiers st' = 9).
Proof.
  exact (down_up_modifier_clears_bit sample_layout "Control" "Control"
           (kd (Some "Control") None (Some 17) None (Some "ControlLeft") (Some 1) None)
           no_options (set_modifiers 9 init_state) eq_refl eq_refl eq_refl eq_refl).
Defined.

(** ** Key resolution depends on the Shift bit and on the other modifiers *)

Definition map_result {A B} (f : A -> B) (r : result A) : result B :=
  match r with Ok a => Ok (f a) | Raise e => Raise e end.

(** The fields of a description other than its text. *)
Definition description_without_text (d : description) : string * Z * string * Z :=
  (desc_key d, desc_keyCode d, desc_code d, desc_location d).

(** C2 (counterexample): with the same (clear) Shift bit, the key ["KeyA"]
    resolves to the text ["a"] with no modifier and to the empty text with
    Alt held. *)
Lemma resolution_depends_on_alt_bit :
  Z.land 0 8 = Z.land 1 8 /\
  keyDescriptionForString sample_layout 0 "KeyA" = Ok (mkDescription "a" 65 "KeyA" "a" 0) /\
  keyDescriptionForString sample_layout 1 "KeyA" = Ok (mkDescription "a" 65 "KeyA" "" 0).
Proof. repeat split; reflexivity. Qed.

(** C2 (amended): resolving a key name is a function of the key name, the
    Shift bit and whether any non-Shift modifier bit is set; the label,
    virtual key code, hardware code and location depend only on the key name
    and the Shift bit; the text is empty whenever Alt, Control or Meta is
    set; and resolution reads [self._modifiers] only, changes no state and
    dispatches nothing. *)
Theorem resolution_function_of_shift_and_other_bits (tbl : layout) (key : string) :
  (forall m1 m2, Z.land m1 8 = Z.land m2 8 ->
     truthy_int (Z.land m1 (Z.lnot 8)) = truthy_int (Z.land m2 (Z.lnot 8)) ->
     keyDescriptionForString tbl m1 key = keyDescriptionForString tbl m2 key) /\
  (forall m1 m2, Z.land m1 8 = Z.land m2 8 ->
     map_result description_without_text (keyDescriptionForString tbl m1 key) =
     map_result description_without_text (keyDescriptionForString tbl m2 key)) /\
  (forall m d, truthy_int (Z.land m (Z.lnot 8)) = true ->
     keyDescriptionForString tbl m key = Ok d -> desc_text d = "") /\
  (forall st, describe tbl key st = (keyDescriptionForString tbl (kb_modifiers st) key, st, [])).
Proof.
  split; [|split; [|split]].
  - intros m1 m2 Hs Ho. unfold keyDescriptionForString. cbv zeta.
    rewrite Hs, Ho. reflexivity.
  - intros m1 m2 Hs. unfold keyDescriptionForString. cbv zeta. rewrite Hs.
    destruct (layout_get tbl key) as [def|]; [|reflexivity].
    destruct (negb (keydef_truthy def)); reflexivity.
  - intros m d Ho. unfold keyDescriptionForString. cbv zeta. rewrite Ho.
    destruct (layout_get tbl key) as [def|]; [|discriminate].
    destruct (negb (keydef_truthy def)); [discriminate|].
    intros E; injection E as <-; reflexivity.
  - intros st. unfold describe, bind, get, lift, ret, raise.
    destruct (keyDescriptionForString tbl (kb_modifiers st) key); reflexivity.
Qed.

(** Alt and Alt+Control, neither with Shift, resolve ["KeyA"] alike. *)
Lemma resolution_function_of_shift_and_other_bits_witness :
  Z.land 1 8 = Z.land 3 8 /\
  truthy_int (Z.land 1 (Z.lnot 8)) = truthy_int (Z.land 3 (Z.lnot 8)) /\
  keyDescriptionForString sample_layout 1 "KeyA" = keyDescriptionForString sample_layout 3 "KeyA".
Proof.
  split; [reflexivity|]. split; [reflexivity|].
  exact (proj1 (resolution_function_of_shift_and_other_bits sample_layout "KeyA")
           1 3 eq_refl eq_refl).
Defined.

(** ** Tapping *)

(** [round] succeeds exactly on finite floats (zeros and finite numbers). *)
Lemma py_round_ok_finite (f : float) :
  (exists z, py_round f = Ok z) <->
  match Prim2SF f with S754_nan | S754_infinity _ => False | _ => True end.
Proof.
  unfold py_round. destruct (Prim2SF f).
  - split; [intros _; exact I | intros _; exists 0; reflexivity].
  - split; [intros [z Hz]; discriminate | intros []].
  - split; [intros [z Hz]; discriminate | intros []].
  - split; [intros _; exact I | intros _; eexists; reflexivity].
Qed.

(** C9 (counterexample): [tap(nan, 0.0)] raises [ValueError] in [round]
    and dispatches no touch event. *)
Lemma tap_nan_dispatches_nothing :
  tap PrimFloat.nan 0%float init_state = (Raise ValueError, init_state, []).
Proof. reflexivity. Qed.

(** C9 (amended): when both coordinates are finite (both [round] calls
    succeed), [tap] dispatches exactly a touch-start with the single point
    [(round(x), round(y))] and then a touch-end with no point, both with the
    current modifiers, and changes no state; when [round] raises (a NaN or
    infinite coordinate), it raises before any dispatch with the state
    unchanged. *)
Theorem tap_dispatches_start_then_end (x y : float) (st : state) :
  match py_round x, py_round y with
  | Ok rx, Ok ry =>
      tap x y st =
        (Ok tt, st,
         [Send "Input.dispatchTouchEvent" (TouchEv "touchStart" [(rx, ry)] (kb_modifiers st));
          Send "Input.dispatchTouchEvent" (TouchEv "touchEnd" [] (kb_modifiers st))])
  | Raise e, _ => tap x y st = (Raise e, st, [])
  | Ok _, Raise e => tap x y st = (Raise e, st, [])
  end.
Proof.
  run_step. destruct (py_round x) as [rx|e]; [|reflexivity].
  destruct (py_round y) as [ry|e]; reflexivity.
Qed.

(** ** Typing without a generic-character entry *)

(** The events [type] produces for one character when the table has no
    ["char"] entry and the delay is [d]. *)
Definition char_then_delay (modifiers d : Z) (c : ascii) : list action :=
  [Send "Input.dispatchKeyEvent"
     (CharEv modifiers (String c EmptyString) (String c EmptyString) (String c EmptyString));
   SleepMs d].

Lemma type_chars_no_char_entry (tbl : layout) (d : Z) (st : state) (text : string) :
  layout_has tbl "char" = false -> truthy_int d = true ->
  type_chars tbl text d st =
    (Ok tt, st, flat_map (char_then_delay (kb_modifiers st) d) (list_ascii_of_string text)).
Proof.
  intros Hno Hd. induction text as [|c rest IH]; [reflexivity|].
  simpl type_chars. cbv [bind sendCharacter get send sleep_ms ret].
  rewrite Hno, Hd. cbv beta iota zeta. rewrite IH. reflexivity.
Qed.

(** C7: when the layout table has no ["char"] entry, [type(text, delay=d)]
    with [d > 0] dispatches, for each character of [text] in order, one
    ["char"] key event for that character followed by one sleep of [d]
    milliseconds; no key-down and no key-up event is dispatched and the state
    is unchanged. *)
Theorem type_without_char_entry (tbl : layout) (Hno : layout_has tbl "char" = false)
    (text : string) (options : key_options) (d : Z)
    (Hdelay : opt_delay options = Some d) (Hpos : 0 < d) (st : state) :
  type tbl text options st =
    (Ok tt, st, flat_map (char_then_delay (kb_modifiers st) d) (list_ascii_of_string text)).
Proof.
  assert (Hd : truthy_int d = true)
    by (unfold truthy_int; rewrite negb_true_iff, Z.eqb_neq; lia).
  unfold type, delay_of, get_truthy_int. rewrite Hdelay, Hd.
  apply type_chars_no_char_entry; assumption.
Qed.

(** [type("Hi", delay=10)] with the sample table. *)
Lemma type_without_char_entry_witness :
  type sample_layout "Hi" (mkKeyOptions None (Some 10)) init_state =
    (Ok tt, init_state,
     [Send "Input.dispatchKeyEvent" (CharEv 0 "H" "H" "H"); SleepMs 10;
      Send "Input.dispatchKeyEvent" (CharEv 0 "i" "i" "i"); SleepMs 10]).
Proof.
  exact (type_without_char_entry sample_layout eq_refl "Hi"
           (mkKeyOptions None (Some 10)) 10 eq_refl ltac:(lia) init_state).
Defined.

(** ** Moving the mouse *)

(** The point computed by the loop of [Mouse.move] at step [i] of [n], in
    binary64: [fromX + (x - fromX) * (i / n)], where [i / n] is the
    correctly rounded quotient. *)
Definition lerp (from to : float) (i n : Z) : float :=
  PrimFloat.add from (PrimFloat.mul (PrimFloat.sub to from) (truediv_finite i n)).

(** Within the loop of [Mouse.move], [1 <= i <= steps], so [i / steps] never
    raises. *)
Lemma int_truediv_step (i n : Z) :
  1 <= i <= n -> int_truediv i n = Ok (truediv_finite i n).
Proof.
  intros Hi. unfold int_truediv.
  assert (HK : 3 <= 2 ^ 1025 - 2 ^ 971) by (apply Z.leb_le; reflexivity).
  replace (n =? 0) with false by (symmetry; apply Z.eqb_neq; lia).
  replace (i =? 0) with false by (symmetry; apply Z.eqb_neq; lia).
  replace (Z.abs n * (2 ^ 1025 - 2 ^ 971) <=? 2 * Z.abs i) with false
    by (symmetry; apply Z.leb_gt; rewrite !Z.abs_eq by lia; nia).
  reflexivity.
Qed.

Lemma range_bounds (lo hi i : Z) : In i (range lo hi) -> lo <= i < hi.
Proof.
  unfold range. rewrite in_map_iff. intros [k [<- Hk]].
  apply in_seq in Hk. lia.
Qed.

Lemma range_length (lo hi : Z) : List.length (range lo hi) = Z.to_nat (hi - lo).
Proof. unfold range. rewrite length_map, length_seq. reflexivity. Qed.

Lemma move_loop (S : state) (fromX fromY : float) (n : Z) (rx ry : Z -> Z)
    (l : list Z) :
  (forall i, In i l -> 1 <= i <= n) ->
  (forall i, In i l -> py_round (lerp fromX (mouse_x S) i n) = Ok (rx i)) ->
  (forall i, In i l -> py_round (lerp fromY (mouse_y S) i n) = Ok (ry i)) ->
  for_each l (move_step fromX fromY n) S =
    (Ok tt, S, map (fun i => Send "Input.dispatchMouseEvent"
                       (MouseMovedEv (mouse_button S) (rx i) (ry i) (kb_modifiers S))) l).
Proof.
  induction l as [|i l IH]; intros Hl Hx Hy; [reflexivity|].
  assert (Hstep : move_step fromX fromY n i S =
            (Ok tt, S, [Send "Input.dispatchMouseEvent"
                          (MouseMovedEv (mouse_button S) (rx i) (ry i) (kb_modifiers S))])).
  { cbv [bind move_step get lift send ret raise].
    rewrite (int_truediv_step i n (Hl i (or_introl eq_refl))).
    unfold lerp in Hx, Hy.
    rewrite (Hx i (or_introl eq_refl)), (Hy i (or_introl eq_refl)). reflexivity. }
  simpl for_each. unfold bind at 1. rewrite Hstep.
  rewrite IH; [reflexivity | intros j Hj; apply Hl | intros j Hj; apply Hx
              | intros j Hj; apply Hy]; right; exact Hj.
Qed.

(** C5 (counterexample): with the cursor at x = -3.9 (after [move(-3.9, 0)]),
    a one-step [move(0.5, 0)] dispatches its last (only) event at x = 1,
    since [-3.9 + (0.5 - -3.9) * 1.0] evaluates to [0.5000000000000004] in
    binary64, while [round(0.5)] is 0. *)
Lemma move_last_event_not_rounded_target :
  exists st1 tr1 st2,
    move (-3.9)%float 0%float None init_state = (Ok tt, st1, tr1) /\
    move 0.5%float 0%float (Some 1) st1 =
      (Ok tt, st2, [Send "Input.dispatchMouseEvent" (MouseMovedEv "none" 1 0 0)]) /\
    py_round 0.5%float = Ok 0.
Proof.
  do 3 eexists. split; [vm_compute; reflexivity|].
  split; vm_compute; reflexivity.
Qed.

(** C5 (amended): [move(x, y, steps=n)] stores the target [(x, y)] as the
    cursor position before its loop (its outcome is that of the loop run
    from the state holding the target), then for i in 1..n dispatches, in order,
    one ["mouseMoved"] event at [(round(fromX + (x - fromX) * (i / n)),
    round(fromY + (y - fromY) * (i / n)))], computed in binary64 from the
    origin [(fromX, fromY)] with [i / n] the correctly rounded quotient, with the current button and modifiers: exactly
    n events when [n >= 1] and the roundings succeed. *)
Theorem move_dispatches_interpolated_points (st : state) (x y : float) (n : Z)
    (rx ry : Z -> Z)
    (Hx : forall i, 1 <= i <= n -> py_round (lerp (mouse_x st) x i n) = Ok (rx i))
    (Hy : forall i, 1 <= i <= n -> py_round (lerp (mouse_y st) y i n) = Ok (ry i)) :
  (forall r S tr,
     for_each (range 1 (n + 1)) (move_step (mouse_x st) (mouse_y st) n)
       (set_position x y st) = (r, S, tr) ->
     move x y (Some n) st = (r, S, tr)) /\
  move x y (Some n) st =
    (Ok tt, set_position x y st,
     map (fun i => Send "Input.dispatchMouseEvent"
                     (MouseMovedEv (mouse_button st) (rx i) (ry i) (kb_modifiers st)))
         (range 1 (n + 1))) /\
  List.length (range 1 (n + 1)) = Z.to_nat n.
Proof.
  split; [|split].
  - intros r S tr Hloop. cbv [move bind get put]. cbv beta iota zeta.
    rewrite Hloop. reflexivity.
  - cbv [move bind get put]. cbv beta iota zeta.
    rewrite (move_loop (set_position x y st) (mouse_x st) (mouse_y st) n rx ry).
    + reflexivity.
    + intros i Hi. apply range_bounds in Hi. lia.
    + intros i Hi. apply range_bounds in Hi. apply Hx. lia.
    + intros i Hi. apply range_bounds in Hi. apply Hy. lia.
  - rewrite range_length. f_equal. lia.
Qed.

(** The rounded points of a five-step move from the origin to (10, 7). *)
Definition sample_rx (i : Z) : Z :=
  match py_round (lerp 0%float 10%float i 5) with Ok z => z | Raise _ => 0 end.
Definition sample_ry (i : Z) : Z :=
  match py_round (lerp 0%float 7%float i 5) with Ok z => z | Raise _ => 0 end.

Lemma move_dispatches_interpolated_points_witness :
  exists tr,
    move 10%float 7%float (Some 5) init_state =
      (Ok tt, set_position 10%float 7%float init_state, tr) /\
    tr = [Send "Input.dispatchMouseEvent" (MouseMovedEv "none" 2 1 0);
          Send "Input.dispatchMouseEvent" (MouseMovedEv "none" 4 3 0);
          Send "Input.dispatchMouseEvent" (MouseMovedEv "none" 6 4 0);
          Send "Input.dispatchMouseEvent" (MouseMovedEv "none" 8 6 0);
          Send "Input.dispatchMouseEvent" (MouseMovedEv "none" 10 7 0)].
Proof.
  eexists. split.
  - exact (proj1 (proj2 (move_dispatches_interpolated_points init_state 10%float 7%float 5
             sample_rx sample_ry
             ltac:(intros i Hi; assert (i = 1 \/ i = 2 \/ i = 3 \/ i = 4 \/ i = 5) as E by lia;
                   repeat destruct E as [-> | E]; subst; reflexivity)
             ltac:(intros i Hi; assert (i = 1 \/ i = 2 \/ i = 3 \/ i = 4 \/ i = 5) as E by lia;
                   repeat destruct E as [-> | E]; subst; reflexivity)))).
  - vm_compute. reflexivity.
Defined.

(** The quotient [i / n] is rounded once: in a move from the origin to
    [x = 1.5 * 2^53] with [2^53 + 1] steps, the first point is
    [1.5 * 2^53 * (2^-53 - 2^-106)], just below 1.5, so the first event is at
    x = 1 (rounding each operand of [i / n] to a float first would give
    [2^-53] and x = 2). *)
Lemma move_first_step_quotient_rounded_once :
  move_step 0%float 0%float (2 ^ 53 + 1) 1
    (set_position 13510798882111488%float 0%float init_state) =
  (Ok tt, set_position 13510798882111488%float 0%float init_state,
   [Send "Input.dispatchMouseEvent" (MouseMovedEv "none" 1 0 0)]).
Proof. vm_compute. reflexivity. Qed.

(** ** Relations between the state before and after a computation *)

Definition final_state {A} (r : result A * state * list action) : state := snd (fst r).

Section Keeps.

Variable R : state -> state -> Prop.
Context {R_preorder : PreOrder R}.

(** Started in [s], [m] ends in a state related to [s]. *)
Definition keeps_at {A} (s : state) (m : M A) : Prop := R s (final_state (m s)).
Definition keeps {A} (m : M A) : Prop := forall s, keeps_at s m.

Lemma keeps_at_bind {A B} (s : state) (m : M A) (k : A -> M B) :
  keeps_at s m ->
  (forall a s' tr, m s = (Ok a, s', tr) -> keeps_at s' (k a)) ->
  keeps_at s (bind m k).
Proof.
  unfold keeps_at, final_state, bind. intros Hm Hk.
  destruct (m s) as [[[a|e] s1] tr1] eqn:E; simpl in *; [|exact Hm].
  specialize (Hk a s1 tr1 eq_refl).
  destruct (k a s1) as [[r2 s2] tr2]; simpl in *. etransitivity; eassumption.
Qed.

Lemma keeps_bind {A B} (m : M A) (k : A -> M B) :
  keeps m -> (forall a, keeps (k a)) -> keeps (bind m k).
Proof. intros Hm Hk s. apply keeps_at_bind; [apply Hm | intros; apply Hk]. Qed.

Lemma keeps_at_get_bind {B} (s : state) (k : state -> M B) :
  keeps_at s (k s) -> keeps_at s (bind get k).
Proof.
  unfold keeps_at, final_state, bind, get. simpl.
  destruct (k s s) as [[r s2] tr2]; simpl; auto.
Qed.

Lemma keeps_at_put_bind {B} (s s' : state) (k : unit -> M B) :
  R s s' -> keeps_at s' (k tt) -> keeps_at s (bind (put s') k).
Proof.
  unfold keeps_at, final_state, bind, put. simpl.
  destruct (k tt s') as [[r s2] tr2]; simpl. intros; etransitivity; eassumption.
Qed.

Lemma keeps_ret {A} (a : A) : keeps (ret a).
Proof. intros s; unfold keeps_at; simpl; reflexivity. Qed.
Lemma keeps_raise {A} (e : pyerror) : keeps (@raise A e).
Proof. intros s; unfold keeps_at; simpl; reflexivity. Qed.
Lemma keeps_lift {A} (r : result A) : keeps (lift r).
Proof. destruct r; [apply keeps_ret | apply keeps_raise]. Qed.
Lemma keeps_send (meth : string) (p : message) : keeps (send meth p).
Proof. intros s; unfold keeps_at; simpl; reflexivity. Qed.
Lemma keeps_sleep (d : Z) : keeps (sleep_ms d).
Proof. intros s; unfold keeps_at; simpl; reflexivity. Qed.

Lemma keeps_for_each {A} (l : list A) (body : A -> M unit) :
  (forall a, keeps (body a)) -> keeps (for_each l body).
Proof.
  intros Hb. induction l as [|a l IH]; [apply keeps_ret|].
  simpl. apply keeps_bind; [apply Hb | intros; exact IH].
Qed.

Lemma keeps_describe (tbl : layout) (key : string) : keeps (describe tbl key).
Proof. intros s. apply keeps_at_get_bind. apply keeps_lift. Qed.

Lemma keeps_sendCharacter (c : string) : keeps (sendCharacter c).
Proof. intros s. apply keeps_at_get_bind. apply keeps_send. Qed.

End Keeps.

(** Proof steps for [keeps] goals. *)
Ltac keeps_step :=
  match goal with
  | |- keeps_at _ _ (bind get _) => apply keeps_at_get_bind
  | |- keeps_at _ _ (bind (put _) _) =>
      eapply keeps_at_put_bind; [typeclasses eauto | |]
  | |- keeps_at _ _ (bind _ _) =>
      eapply keeps_at_bind; [typeclasses eauto | | intros ? ? ? ?]
  | |- keeps _ (bind _ _) =>
      eapply keeps_bind; [typeclasses eauto | | intros ?]
  | |- keeps _ _ => intros ?
  end.

(** The keyboard fields are unchanged. *)
Definition keyboard_same (s s' : state) : Prop :=
  kb_modifiers s' = kb_modifiers s /\ kb_pressedKeys s' = kb_pressedKeys s.

(** The mouse fields are unchanged. *)
Definition mouse_same (s s' : state) : Prop :=
  mouse_x s' = mouse_x s /\ mouse_y s' = mouse_y s /\ mouse_button s' = mouse_button s.

(** The modifier bitmask stays within the four modifier bits. *)
Definition modifiers_in_range (m : Z) : Prop := 0 <= m < 16.
Definition modifiers_kept_in_range (s s' : state) : Prop :=
  modifiers_in_range (kb_modifiers s) -> modifiers_in_range (kb_modifiers s').

#[export] Instance keyboard_same_preorder : PreOrder keyboard_same.
Proof.
  split; [intros s; split; reflexivity|].
  intros a b c [H1 H2] [H3 H4]; split; congruence.
Qed.

#[export] Instance mouse_same_preorder : PreOrder mouse_same.
Proof.
  split; [intros s; repeat split; reflexivity|].
  intros a b c [H1 [H2 H3]] [H4 [H5 H6]]; repeat split; congruence.
Qed.

#[export] Instance modifiers_kept_in_range_preorder : PreOrder modifiers_kept_in_range.
Proof.
  split; [intros s H; exact H|]. intros a b c H1 H2 H; auto.
Qed.

Tactic Notation "kapply" constr(L) := eapply L; try typeclasses eauto.

Lemma lift_state {A} (r : result A) (s s' : state) (a : A) (tr : list action) :
  lift r s = (Ok a, s', tr) -> s' = s.
Proof. destruct r; unfold lift, ret, raise; congruence. Qed.

Ltac lift_subst :=
  match goal with
  | H : lift _ ?s = (Ok _, ?s', _) |- _ => apply lift_state in H; subst s'
  end.

Ltac keeps_solve put_tac :=
  repeat first
    [ progress keeps_step
    | lift_subst
    | typeclasses eauto
    | apply keeps_describe | apply keeps_sendCharacter | apply keeps_send
    | apply keeps_sleep | apply keeps_lift | apply keeps_ret | apply keeps_raise
    | put_tac ].

Lemma keeps_move (R : state -> state -> Prop) `{PreOrder state R}
    (x y : float) (steps : option Z) :
  (forall s, R s (set_position x y s)) -> keeps R (move x y steps).
Proof.
  intros Hpos s. unfold move. keeps_step. cbv zeta. keeps_step; [apply Hpos|].
  kapply keeps_for_each. intros i s'. unfold move_step.
  keeps_solve fail.
Qed.

Lemma keeps_mouse_down (R : state -> state -> Prop) `{PreOrder state R}
    (o : mouse_options) :
  (forall s b, R s (set_button b s)) -> keeps R (mouse_down o).
Proof. intros Hb s. unfold mouse_down. keeps_solve ltac:(apply Hb). Qed.

Lemma keeps_mouse_up (R : state -> state -> Prop) `{PreOrder state R}
    (o : mouse_options) :
  (forall s b, R s (set_button b s)) -> keeps R (mouse_up o).
Proof. intros Hb s. unfold mouse_up. keeps_solve ltac:(apply Hb). Qed.

(** Mouse and touchscreen operations never change the keyboard's modifiers or
    pressed keys: they only read [keyboard._modifiers]. *)
Theorem mouse_and_touch_keep_keyboard_state (x y : float) (steps : option Z)
    (o : mouse_options) :
  keeps keyboard_same (move x y steps) /\
  keeps keyboard_same (mouse_down o) /\
  keeps keyboard_same (mouse_up o) /\
  keeps keyboard_same (click x y o) /\
  keeps keyboard_same (tap x y).
Proof.
  assert (Hp : forall s, keyboard_same s (set_position x y s)) by (intros; split; reflexivity).
  assert (Hb : forall s b, keyboard_same s (set_button b s)) by (intros; split; reflexivity).
  split; [kapply keeps_move; apply Hp|].
  split; [kapply keeps_mouse_down; apply Hb|].
  split; [kapply keeps_mouse_up; apply Hb|].
  split.
  - unfold click. kapply keeps_bind; [kapply keeps_move; apply Hp|intros _].
    kapply keeps_bind; [kapply keeps_mouse_down; apply Hb|intros _].
    kapply keeps_bind; [|intros _; kapply keeps_mouse_up; apply Hb].
    destruct (get_truthy_int (mopt_delay o)); [kapply keeps_sleep | kapply keeps_ret].
  - intros s. unfold tap. keeps_solve fail.
Qed.

Lemma modifierBit_cases (key : string) : In (modifierBit key) [0; 1; 2; 4; 8].
Proof.
  unfold modifierBit.
  destruct (String.eqb key "Alt"); [simpl; tauto|].
  destruct (String.eqb key "Control"); [simpl; tauto|].
  destruct (String.eqb key "Meta"); [simpl; tauto|].
  destruct (String.eqb key "Shift"); simpl; tauto.
Qed.

Section KeyboardKeeps.

Variable R : state -> state -> Prop.
Context {R_preorder : PreOrder R}.
Hypothesis R_pressed : forall s p, R s (set_pressedKeys p s).
Hypothesis R_set_bit : forall s b, In b [0; 1; 2; 4; 8] ->
  R s (set_modifiers (Z.lor (kb_modifiers s) b) s).
Hypothesis R_clear_bit : forall s b, In b [0; 1; 2; 4; 8] ->
  R s (set_modifiers (Z.land (kb_modifiers s) (Z.lnot b)) s).
Variable tbl : layout.

Ltac kb_put :=
  first [ apply R_pressed
        | apply R_set_bit, modifierBit_cases
        | apply R_clear_bit, modifierBit_cases ].

Lemma keeps_down (key : string) (o : key_options) : keeps R (down tbl key o).
Proof. intros s. unfold down. keeps_solve kb_put. Qed.

Lemma keeps_up (key : string) : keeps R (up tbl key).
Proof. intros s. unfold up. keeps_solve kb_put. Qed.

Lemma keeps_press (key : string) (o : key_options) : keeps R (press tbl key o).
Proof.
  unfold press. kapply keeps_bind; [apply keeps_down | intros _].
  kapply keeps_bind; [|intros _; apply keeps_up].
  destruct (delay_of o); [kapply keeps_sleep | kapply keeps_ret].
Qed.

Lemma keeps_type (text : string) (o : key_options) : keeps R (type tbl text o).
Proof.
  unfold type. generalize (match delay_of o with Some d => d | None => 0 end) as d.
  intros d. induction text as [|c rest IH]; [kapply keeps_ret|].
  simpl. kapply keeps_bind.
  - destruct (layout_has tbl "char"); [apply keeps_press | kapply keeps_sendCharacter].
  - intros _. kapply keeps_bind; [|intros _; exact IH].
    destruct (truthy_int d); [kapply keeps_sleep | kapply keeps_ret].
Qed.

End KeyboardKeeps.

(** Keyboard operations never change the mouse position or button. *)
Theorem keyboard_keeps_mouse_state (tbl : layout) (key text : string)
    (o : key_options) :
  keeps mouse_same (down tbl key o) /\
  keeps mouse_same (up tbl key) /\
  keeps mouse_same (press tbl key o) /\
  keeps mouse_same (type tbl text o) /\
  keeps mouse_same (sendCharacter key).
Proof.
  assert (Hp : forall s p, mouse_same s (set_pressedKeys p s)) by (intros; repeat split).
  assert (Hm : forall s m, mouse_same s (set_modifiers m s)) by (intros; repeat split).
  split; [kapply keeps_down; auto|].
  split; [kapply keeps_up; auto|].
  split; [kapply keeps_press; auto|].
  split; [kapply keeps_type; auto|].
  kapply keeps_sendCharacter.
Qed.

Lemma small_cases (m : Z) :
  0 <= m < 16 ->
  In m [0; 1; 2; 3; 4; 5; 6; 7; 8; 9; 10; 11; 12; 13; 14; 15].
Proof.
  intros Hm. simpl.
  assert (m = 0 \/ m = 1 \/ m = 2 \/ m = 3 \/ m = 4 \/ m = 5 \/ m = 6 \/ m = 7 \/
          m = 8 \/ m = 9 \/ m = 10 \/ m = 11 \/ m = 12 \/ m = 13 \/ m = 14 \/ m = 15)
    by lia.
  intuition.
Qed.

Lemma lor_bit_in_range (m b : Z) :
  0 <= m < 16 -> In b [0; 1; 2; 4; 8] -> 0 <= Z.lor m b < 16.
Proof.
  intros Hm Hb. apply small_cases in Hm.
  assert (Hall : forallb (fun m => forallb (fun b => (0 <=? Z.lor m b) && (Z.lor m b <? 16))
                   [0; 1; 2; 4; 8])
                   [0; 1; 2; 3; 4; 5; 6; 7; 8; 9; 10; 11; 12; 13; 14; 15] = true)
    by reflexivity.
  rewrite forallb_forall in Hall. specialize (Hall m Hm).
  rewrite forallb_forall in Hall. specialize (Hall b Hb).
  apply andb_true_iff in Hall as [H1 H2]. lia.
Qed.

Lemma land_lnot_bit_in_range (m b : Z) :
  0 <= m < 16 -> In b [0; 1; 2; 4; 8] -> 0 <= Z.land m (Z.lnot b) < 16.
Proof.
  intros Hm Hb. apply small_cases in Hm.
  assert (Hall : forallb (fun m => forallb (fun b =>
                     (0 <=? Z.land m (Z.lnot b)) && (Z.land m (Z.lnot b) <? 16))
                   [0; 1; 2; 4; 8])
                   [0; 1; 2; 3; 4; 5; 6; 7; 8; 9; 10; 11; 12; 13; 14; 15] = true)
    by reflexivity.
  rewrite forallb_forall in Hall. specialize (Hall m Hm).
  rewrite forallb_forall in Hall. specialize (Hall b Hb).
  apply andb_true_iff in Hall as [H1 H2]. lia.
Qed.

(** The modifier bitmask stays within [0, 16), that is within the bits of
    Alt (1), Control (2), Meta (4) and Shift (8), across every keyboard,
    mouse and touchscreen operation, whether it returns or raises; a new
    keyboard starts at 0. *)
Theorem modifiers_stay_in_range (tbl : layout) (key text : string)
    (o : key_options) (x y : float) (steps : option Z) (mo : mouse_options) :
  modifiers_in_range (kb_modifiers init_state) /\
  keeps modifiers_kept_in_range (down tbl key o) /\
  keeps modifiers_kept_in_range (up tbl key) /\
  keeps modifiers_kept_in_range (press tbl key o) /\
  keeps modifiers_kept_in_range (type tbl text o) /\
  keeps modifiers_kept_in_range (sendCharacter key) /\
  keeps modifiers_kept_in_range (move x y steps) /\
  keeps modifiers_kept_in_range (mouse_down mo) /\
  keeps modifiers_kept_in_range (mouse_up mo) /\
  keeps modifiers_kept_in_range (click x y mo) /\
  keeps modifiers_kept_in_range (tap x y).
Proof.
  assert (Hp : forall s p, modifiers_kept_in_range s (set_pressedKeys p s)) by (intros s p H; exact H).
  assert (Hset : forall s b, In b [0; 1; 2; 4; 8] ->
            modifiers_kept_in_range s (set_modifiers (Z.lor (kb_modifiers s) b) s))
    by (intros s b Hb H; apply lor_bit_in_range; assumption).
  assert (Hclr : forall s b, In b [0; 1; 2; 4; 8] ->
            modifiers_kept_in_range s (set_modifiers (Z.land (kb_modifiers s) (Z.lnot b)) s))
    by (intros s b Hb H; apply land_lnot_bit_in_range; assumption).
  assert (Hpos : forall s, modifiers_kept_in_range s (set_position x y s)) by (intros s H; exact H).
  assert (Hb : forall s b, modifiers_kept_in_range s (set_button b s)) by (intros s b H; exact H).
  split; [unfold modifiers_in_range; simpl; lia|].
  split; [kapply keeps_down; auto|].
  split; [kapply keeps_up; auto|].
  split; [kapply keeps_press; auto|].
  split; [kapply keeps_type; auto|].
  split; [kapply keeps_sendCharacter|].
  split; [kapply keeps_move; auto|].
  split; [kapply keeps_mouse_down; apply Hb|].
  split; [kapply keeps_mouse_up; apply Hb|].
  split.
  - unfold click. kapply keeps_bind; [kapply keeps_move; apply Hpos|intros _].
    kapply keeps_bind; [kapply keeps_mouse_down; apply Hb|intros _].
    kapply keeps_bind; [|intros _; kapply keeps_mouse_up; apply Hb].
    destruct (get_truthy_int (mopt_delay mo)); [kapply keeps_sleep | kapply keeps_ret].
  - intros s. unfold tap. keeps_solve fail.
Qed.

(** ** Pressing a key *)

(** The hardware code and the location of a key do not depend on the
    modifiers. *)
Lemma resolve_code_location (tbl : layout) (key : string) (m1 m2 : Z)
    (d1 d2 : description) :
  keyDescriptionForString tbl m1 key = Ok d1 ->
  keyDescriptionForString tbl m2 key = Ok d2 ->
  desc_code d1 = desc_code d2 /\ desc_location d1 = desc_location d2.
Proof.
  unfold keyDescriptionForString. cbv zeta.
  destruct (layout_get tbl key) as [def|]; [|discriminate].
  destruct (negb (keydef_truthy def)); [discriminate|].
  intros E1 E2. injection E1 as <-. injection E2 as <-. split; reflexivity.
Qed.

Lemma filter_not_mem (c : string) (P : list string) :
  set_mem c P = false -> filter (fun y => negb (String.eqb c y)) P = P.
Proof.
  induction P as [|y P IH]; [reflexivity|]. simpl.
  intros H. apply orb_false_iff in H as [H1 H2].
  rewrite H1. simpl. rewrite IH by exact H2. reflexivity.
Qed.

Lemma down_ok (tbl : layout) (key : string) (o : key_options) (st : state)
    (d : description) :
  keyDescriptionForString tbl (kb_modifiers st) key = Ok d ->
  exists p,
    down tbl key o st =
      (Ok tt,
       set_modifiers (Z.lor (kb_modifiers st) (modifierBit (desc_key d)))
         (set_pressedKeys (set_add (desc_code d) (kb_pressedKeys st)) st),
       [Send "Input.dispatchKeyEvent" (KeyDownEv p)]) /\
    kd_key p = desc_key d /\ kd_code p = desc_code d /\
    kd_modifiers p = Z.lor (kb_modifiers st) (modifierBit (desc_key d)) /\
    kd_autoRepeat p = set_mem (desc_key d) (kb_pressedKeys st).
Proof.
  intros Hd. eexists. run_step. rewrite Hd. cbv beta iota zeta.
  split; [reflexivity|]. repeat split.
Qed.

Lemma up_ok (tbl : layout) (key : string) (st : state) (d : description) :
  keyDescriptionForString tbl (kb_modifiers st) key = Ok d ->
  set_mem (desc_code d) (kb_pressedKeys st) = true ->
  let m' := Z.land (kb_modifiers st) (Z.lnot (modifierBit (desc_key d))) in
  up tbl key st =
    (Ok tt,
     set_pressedKeys (filter (fun y => negb (String.eqb (desc_code d) y)) (kb_pressedKeys st))
       (set_modifiers m' st),
     [Send "Input.dispatchKeyEvent"
        (KeyUpEv m' (desc_key d) (desc_keyCode d) (desc_code d) (desc_location d))]).
Proof.
  intros Hd Hm m'. run_step. rewrite Hd. cbv beta iota zeta.
  unfold set_remove. simpl. rewrite Hm. reflexivity.
Qed.

(** [press] on a key that is not held, whose label is the same whether or not
    its own modifier bit is set, and whose modifier bit (if any) is clear,
    dispatches a key-down, the optional dwell sleep, and a key-up carrying the
    original modifiers, and leaves the whole state exactly as it was. *)
Theorem press_restores_state (tbl : layout) (key : string) (o : key_options)
    (st : state) (d d2 : description)
    (Hd : keyDescriptionForString tbl (kb_modifiers st) key = Ok d)
    (Hd2 : keyDescriptionForString tbl
             (Z.lor (kb_modifiers st) (modifierBit (desc_key d))) key = Ok d2)
    (Hlabel : desc_key d2 = desc_key d)
    (Hbit : Z.land (kb_modifiers st) (modifierBit (desc_key d)) = 0)
    (Hnot : set_mem (desc_code d) (kb_pressedKeys st) = false) :
  exists p,
    press tbl key o st =
      (Ok tt, st,
       ([Send "Input.dispatchKeyEvent" (KeyDownEv p)] ++
        match delay_of o with Some t => [SleepMs t] | None => [] end ++
        [Send "Input.dispatchKeyEvent"
           (KeyUpEv (kb_modifiers st) (desc_key d) (desc_keyCode d2) (desc_code d)
              (desc_location d))])%list) /\
    kd_key p = desc_key d /\ kd_code p = desc_code d /\
    kd_modifiers p = Z.lor (kb_modifiers st) (modifierBit (desc_key d)) /\
    kd_autoRepeat p = set_mem (desc_key d) (kb_pressedKeys st).
Proof.
  destruct (down_ok tbl key o st d Hd) as [p [Hdown Hp]].
  exists p. split; [|exact Hp].
  destruct (resolve_code_location tbl key _ _ d d2 Hd Hd2) as [Hc Hl].
  set (st1 := set_modifiers (Z.lor (kb_modifiers st) (modifierBit (desc_key d)))
                (set_pressedKeys (set_add (desc_code d) (kb_pressedKeys st)) st)).
  assert (Hup : up tbl key st1 =
    (Ok tt, st,
     [Send "Input.dispatchKeyEvent"
        (KeyUpEv (kb_modifiers st) (desc_key d) (desc_keyCode d2) (desc_code d)
           (desc_location d))])).
  { rewrite (up_ok tbl key st1 d2 Hd2).
    - cbv zeta. subst st1. cbn [kb_modifiers kb_pressedKeys set_modifiers set_pressedKeys].
      rewrite Hlabel, land_lor_lnot, (land_lnot_disjoint _ _ Hbit), <- Hc, <- Hl.
      unfold set_add. rewrite Hnot. simpl. rewrite String.eqb_refl. simpl.
      rewrite (filter_not_mem _ _ Hnot). destruct st. reflexivity.
    - subst st1. cbn [kb_pressedKeys set_modifiers set_pressedKeys].
      rewrite <- Hc. apply set_mem_add. }
  unfold press. unfold bind at 1. rewrite Hdown.
  destruct (delay_of o) as [t|]; cbv [bind sleep_ms ret]; fold st1; rewrite Hup; reflexivity.
Qed.

(** [press] on the sample table: ["KeyA"] with a 5 ms dwell from a fresh
    keyboard. *)
Lemma press_restores_state_witness :
  exists p,
    press sample_layout "KeyA" (mkKeyOptions None (Some 5)) init_state =
      (Ok tt, init_state,
       ([Send "Input.dispatchKeyEvent" (KeyDownEv p)] ++ [SleepMs 5] ++
        [Send "Input.dispatchKeyEvent" (KeyUpEv 0 "a" 65 "KeyA" 0)])%list) /\
    kd_key p = "a" /\ kd_code p = "KeyA" /\ kd_modifiers p = Z.lor 0 0 /\
    kd_autoRepeat p = false.
Proof.
  exact (press_restores_state sample_layout "KeyA" (mkKeyOptions None (Some 5)) init_state
           (mkDescription "a" 65 "KeyA" "a" 0) (mkDescription "a" 65 "KeyA" "a" 0)
           eq_refl eq_refl eq_refl eq_refl eq_refl).
Defined.

(** ** Typing through the key table *)

(** The key-down parameters [Keyboard.down] builds for a description [d]
    with modifiers [m], pressed codes [pressed] and emitted text [text]. *)
Definition keyDown_params_of (m : Z) (pressed : list string) (text : string)
    (d : description) : keyDownParams :=
  mkKeyDownParams (if truthy_str text then "keyDown" else "rawKeyDown")
    m (desc_keyCode d) (desc_code d) (desc_key d) text text
    (set_mem (desc_key d) pressed) (desc_location d) (desc_location d =? 3).

Lemma down_exact (tbl : layout) (key : string) (o : key_options) (st : state)
    (d : description) :
  keyDescriptionForString tbl (kb_modifiers st) key = Ok d ->
  let text := match opt_text o with Some t => t | None => desc_text d end in
  let m := Z.lor (kb_modifiers st) (modifierBit (desc_key d)) in
  down tbl key o st =
    (Ok tt, set_modifiers m (set_pressedKeys (set_add (desc_code d) (kb_pressedKeys st)) st),
     [Send "Input.dispatchKeyEvent"
        (KeyDownEv (keyDown_params_of m (kb_pressedKeys st) text d))]).
Proof. intros Hd text m. run_step. rewrite Hd. reflexivity. Qed.

(** A key that is not a modifier and not held: [press] with a truthy delay
    dispatches key-down, sleep, key-up and restores the state. *)
Lemma press_plain_key (tbl : layout) (key : string) (t : Z) (st : state)
    (d : description) :
  keyDescriptionForString tbl (kb_modifiers st) key = Ok d ->
  modifierBit (desc_key d) = 0 ->
  set_mem (desc_code d) (kb_pressedKeys st) = false ->
  truthy_int t = true ->
  press tbl key (mkKeyOptions None (Some t)) st =
    (Ok tt, st,
     [Send "Input.dispatchKeyEvent"
        (KeyDownEv (keyDown_params_of (kb_modifiers st) (kb_pressedKeys st) (desc_text d) d));
      SleepMs t;
      Send "Input.dispatchKeyEvent"
        (KeyUpEv (kb_modifiers st) (desc_key d) (desc_keyCode d) (desc_code d)
           (desc_location d))]).
Proof.
  intros Hd Hb Hnot Ht.
  set (st1 := set_modifiers (kb_modifiers st)
                (set_pressedKeys (set_add (desc_code d) (kb_pressedKeys st)) st)).
  assert (Hd1 : keyDescriptionForString tbl (kb_modifiers st1) key = Ok d) by exact Hd.
  assert (Hup : up tbl key st1 =
    (Ok tt, st,
     [Send "Input.dispatchKeyEvent"
        (KeyUpEv (kb_modifiers st) (desc_key d) (desc_keyCode d) (desc_code d)
           (desc_location d))])).
  { rewrite (up_ok tbl key st1 d Hd1).
    - cbv zeta. subst st1. cbn [kb_modifiers kb_pressedKeys set_modifiers set_pressedKeys].
      rewrite Hb. change (Z.lnot 0) with (-1). rewrite Z.land_m1_r.
      unfold set_add. rewrite Hnot. simpl. rewrite String.eqb_refl. simpl.
      rewrite (filter_not_mem _ _ Hnot). destruct st. reflexivity.
    - subst st1. cbn [kb_pressedKeys set_modifiers set_pressedKeys]. apply set_mem_add. }
  unfold press. unfold bind at 1. rewrite (down_exact tbl key _ st d Hd). cbv zeta.
  rewrite Hb, Z.lor_0_r. cbv [opt_text opt_delay delay_of get_truthy_int].
  rewrite Ht. cbv [bind sleep_ms ret]. fold st1. rewrite Hup. reflexivity.
Qed.

(** The events [type] produces for a character [c] typed through the table,
    with modifiers [m], pressed codes [pressed] and delay [t]. *)
Definition typed_char_events (tbl : layout) (m : Z) (pressed : list string) (t : Z)
    (c : ascii) : list action :=
  match keyDescriptionForString tbl m (String c EmptyString) with
  | Ok dc =>
      [Send "Input.dispatchKeyEvent"
         (KeyDownEv (keyDown_params_of m pressed (desc_text dc) dc));
       SleepMs t;
       Send "Input.dispatchKeyEvent"
         (KeyUpEv m (desc_key dc) (desc_keyCode dc) (desc_code dc) (desc_location dc));
       SleepMs t]
  | Raise _ => []
  end.

(** A character whose key name resolves to a non-modifier key that is not
    held. *)
Definition plain_char (tbl : layout) (st : state) (c : ascii) : Prop :=
  exists dc, keyDescriptionForString tbl (kb_modifiers st) (String c EmptyString) = Ok dc /\
             modifierBit (desc_key dc) = 0 /\
             set_mem (desc_code dc) (kb_pressedKeys st) = false.

Lemma string_append_empty (s : string) : (s ++ "")%string = s.
Proof. induction s as [|c s IH]; [reflexivity|]. simpl. rewrite IH. reflexivity. Qed.

Lemma type_chars_plain_prefix (tbl : layout) (t : Z) (st : state) (text rest : string) :
  layout_has tbl "char" = true -> truthy_int t = true ->
  (forall c, In c (list_ascii_of_string text) -> plain_char tbl st c) ->
  type_chars tbl (text ++ rest) t st =
    match type_chars tbl rest t st with
    | (r, s, tr) =>
        (r, s, (flat_map (typed_char_events tbl (kb_modifiers st) (kb_pressedKeys st) t)
                  (list_ascii_of_string text) ++ tr)%list)
    end.
Proof.
  intros Hchar Ht. induction text as [|c text IH]; intros Hplain.
  - simpl. destruct (type_chars tbl rest t st) as [[r s] tr]. reflexivity.
  - destruct (Hplain c (or_introl eq_refl)) as [dc [Hdc [Hb Hnot]]].
    simpl type_chars. rewrite Hchar. unfold bind at 1.
    rewrite (press_plain_key tbl _ t st dc Hdc Hb Hnot Ht).
    cbv [bind sleep_ms]. rewrite Ht.
    rewrite IH by (intros c' Hc'; apply Hplain; right; exact Hc').
    destruct (type_chars tbl rest t st) as [[r s] tr].
    cbn [list_ascii_of_string flat_map].
    assert (He : typed_char_events tbl (kb_modifiers st) (kb_pressedKeys st) t c =
      [Send "Input.dispatchKeyEvent"
         (KeyDownEv (keyDown_params_of (kb_modifiers st) (kb_pressedKeys st) (desc_text dc) dc));
       SleepMs t;
       Send "Input.dispatchKeyEvent"
         (KeyUpEv (kb_modifiers st) (desc_key dc) (desc_keyCode dc) (desc_code dc)
            (desc_location dc));
       SleepMs t]) by (unfold typed_char_events; rewrite Hdc; reflexivity).
    rewrite He. rewrite <- !app_assoc. reflexivity.
Qed.

(** When the table has a ["char"] entry, [type(text, delay=t)] with [t > 0]
    presses each character of [text] as a key name, in order: for each it
    dispatches a key-down, sleeps [t], dispatches a key-up and sleeps [t]
    again (the dwell of [press] and the pacing of [type]), provided each
    character resolves to a non-modifier key that is not held; the state is
    unchanged at the end. *)
Theorem type_with_char_entry_presses_each_char (tbl : layout)
    (Hchar : layout_has tbl "char" = true) (text : string) (o : key_options) (t : Z)
    (Hdelay : opt_delay o = Some t) (Hpos : 0 < t) (st : state)
    (Hplain : forall c, In c (list_ascii_of_string text) -> plain_char tbl st c) :
  type tbl text o st =
    (Ok tt, st,
     flat_map (typed_char_events tbl (kb_modifiers st) (kb_pressedKeys st) t)
       (list_ascii_of_string text)).
Proof.
  assert (Ht : truthy_int t = true)
    by (unfold truthy_int; rewrite negb_true_iff, Z.eqb_neq; lia).
  unfold type, delay_of, get_truthy_int. rewrite Hdelay, Ht.
  rewrite <- (string_append_empty text) at 1.
  rewrite (type_chars_plain_prefix tbl t st text "" Hchar Ht Hplain).
  simpl. rewrite app_nil_r. reflexivity.
Qed.

(** When the table has a ["char"] entry, the delay [t] is positive, and
    every character before the first one that is not a key name of the
    table resolves to a non-modifier key that is not held, [type] raises
    the unknown-key error at that character, after the key-down, sleep,
    key-up, sleep events of the characters before it, with the state
    unchanged. *)
Theorem type_with_char_entry_stops_at_unknown_char (tbl : layout)
    (Hchar : layout_has tbl "char" = true) (prefix rest : string) (c : ascii)
    (o : key_options) (t : Z) (Hdelay : opt_delay o = Some t) (Hpos : 0 < t)
    (st : state)
    (Hplain : forall c', In c' (list_ascii_of_string prefix) -> plain_char tbl st c')
    (Hunknown : layout_get tbl (String c EmptyString) = None) :
  type tbl (prefix ++ String c rest) o st =
    (Raise (PyppeteerError ("Unknown key: " ++ String c EmptyString)), st,
     flat_map (typed_char_events tbl (kb_modifiers st) (kb_pressedKeys st) t)
       (list_ascii_of_string prefix)).
Proof.
  assert (Ht : truthy_int t = true)
    by (unfold truthy_int; rewrite negb_true_iff, Z.eqb_neq; lia).
  unfold type, delay_of, get_truthy_int. rewrite Hdelay, Ht.
  rewrite (type_chars_plain_prefix tbl t st prefix _ Hchar Ht Hplain).
  assert (Hd : keyDescriptionForString tbl (kb_modifiers st) (String c EmptyString) =
               Raise (PyppeteerError ("Unknown key: " ++ String c EmptyString)))
    by (unfold keyDescriptionForString; rewrite Hunknown; reflexivity).
  simpl type_chars. rewrite Hchar. run_step. rewrite Hd.
  simpl. rewrite app_nil_r. reflexivity.
Qed.

(** The sample table with a ["char"] entry added. *)
Definition sample_layout_with_char : layout :=
  ("char", mkKeydef None None None None None None None None) :: sample_layout.

Lemma type_with_char_entry_presses_each_char_witness :
  type sample_layout_with_char "aa" (mkKeyOptions None (Some 10)) init_state =
    (Ok tt, init_state,
     flat_map (typed_char_events sample_layout_with_char 0 [] 10)
       (list_ascii_of_string "aa")).
Proof.
  apply (type_with_char_entry_presses_each_char sample_layout_with_char eq_refl "aa"
           (mkKeyOptions None (Some 10)) 10 eq_refl); [lia |].
  intros c Hc. simpl in Hc. destruct Hc as [Hc | [Hc | []]]; subst c;
    exists (mkDescription "a" 65 "KeyA" "a" 0); (split; [reflexivity | split; reflexivity]).
Defined.

Lemma type_with_char_entry_stops_at_unknown_char_witness :
  type sample_layout_with_char ("a" ++ String "Z"%char "b") (mkKeyOptions None (Some 10))
    init_state =
    (Raise (PyppeteerError ("Unknown key: " ++ String "Z"%char EmptyString)), init_state,
     flat_map (typed_char_events sample_layout_with_char 0 [] 10)
       (list_ascii_of_string "a")).
Proof.
  apply (type_with_char_entry_stops_at_unknown_char sample_layout_with_char eq_refl
           "a" "b" "Z"%char (mkKeyOptions None (Some 10)) 10 eq_refl); [lia | | reflexivity].
  intros c Hc. simpl in Hc. destruct Hc as [Hc | []]; subst c.
  exists (mkDescription "a" 65 "KeyA" "a" 0); (split; [reflexivity | split; reflexivity]).
Defined.

(** ** Clicking *)



(** ** Edge cases *)

(** [move] with [steps <= 0] stores the target but dispatches no event:
    [range(1, steps + 1)] is empty. *)
Theorem move_nonpositive_steps (x y : float) (n : Z) (st : state) (Hn : n <= 0) :
  move x y (Some n) st = (Ok tt, set_position x y st, []).
Proof.
  assert (Hr : range 1 (n + 1) = []).
  { unfold range. replace (Z.to_nat (n + 1 - 1)) with 0%nat by lia. reflexivity. }
  cbv [move bind get put]. cbv beta iota zeta. rewrite Hr. reflexivity.
Qed.

Lemma move_nonpositive_steps_witness :
  move 3%float 4%float (Some 0) init_state = (Ok tt, set_position 3%float 4%float init_state, []).
Proof. exact (move_nonpositive_steps 3%float 4%float 0 init_state ltac:(lia)). Defined.

(** ** Typing without a delay *)

(** Without a truthy [delay] (absent or 0) and without a ["char"] entry,
    [type] dispatches exactly one ["char"] key event per character, in
    order, and never sleeps. *)
Theorem type_without_delay_sends_only_chars (tbl : layout)
    (Hno : layout_has tbl "char" = false) (text : string) (o : key_options)
    (Hd : delay_of o = None) (st : state) :
  type tbl text o st =
    (Ok tt, st,
     map (fun c => Send "Input.dispatchKeyEvent"
                     (CharEv (kb_modifiers st) (String c EmptyString)
                        (String c EmptyString) (String c EmptyString)))
       (list_ascii_of_string text)).
Proof.
  unfold type. rewrite Hd.
  induction text as [|c rest IH]; [reflexivity|].
  simpl type_chars. cbv [bind sendCharacter get send sleep_ms ret].
  rewrite Hno. cbv beta iota zeta. rewrite IH. reflexivity.
Qed.

Lemma type_without_delay_sends_only_chars_witness :
  type sample_layout "ab" (mkKeyOptions None (Some 0)) init_state =
    (Ok tt, init_state,
     [Send "Input.dispatchKeyEvent" (CharEv 0 "a" "a" "a");
      Send "Input.dispatchKeyEvent" (CharEv 0 "b" "b" "b")]).
Proof.
  exact (type_without_delay_sends_only_chars sample_layout eq_refl "ab"
           (mkKeyOptions None (Some 0)) eq_refl init_state).
Defined.

(** ** Empty layout entries and the text of a key *)

(** A key name mapped to an empty definition is rejected like an absent
    one ([if not definition]): [down], [up] and [press] raise the
    unknown-key error before any dispatch and leave the state as it was. *)
Theorem empty_definition_rejected (tbl : layout) (key : string)
    (Hempty : layout_get tbl key = Some (mkKeydef None None None None None None None None)) :
  forall (st : state) (options : key_options),
    down tbl key options st = (Raise (PyppeteerError ("Unknown key: " ++ key)), st, []) /\
    up tbl key st = (Raise (PyppeteerError ("Unknown key: " ++ key)), st, []) /\
    press tbl key options st = (Raise (PyppeteerError ("Unknown key: " ++ key)), st, []).
Proof.
  intros st options.
  assert (Hd : keyDescriptionForString tbl (kb_modifiers st) key =
               Raise (PyppeteerError ("Unknown key: " ++ key)))
    by (unfold keyDescriptionForString; rewrite Hempty; reflexivity).
  repeat split; run_step; rewrite Hd; reflexivity.
Qed.

Lemma empty_definition_rejected_witness :
  down sample_layout_with_char "char" no_options init_state =
    (Raise (PyppeteerError ("Unknown key: " ++ "char")), init_state, []).
Proof.
  exact (proj1 (empty_definition_rejected sample_layout_with_char "char" eq_refl
                  init_state no_options)).
Defined.

(** When the definition gives neither [text] nor [shiftText] and no
    modifier other than Shift is held, the text of a key is its resolved
    label (after Shift) if that label is one character long, and empty
    otherwise. *)
Theorem text_defaults_to_one_char_label (tbl : layout) (m : Z) (key : string)
    (def : keydef) (d : description)
    (Hget : layout_get tbl key = Some def) (Ht : def_text def = None)
    (Hst : def_shiftText def = None) (Hm : Z.land m (Z.lnot 8) = 0)
    (Hd : keyDescriptionForString tbl m key = Ok d) :
  desc_text d = if (String.length (desc_key d) =? 1)%nat then desc_key d else "".
Proof.
  unfold keyDescriptionForString in Hd. rewrite Hget in Hd.
  destruct (negb (keydef_truthy def)); [discriminate|].
  injection Hd as <-. cbn [desc_text desc_key].
  rewrite Ht, Hst, Hm. reflexivity.
Qed.

Lemma text_defaults_to_one_char_label_witness :
  keyDescriptionForString sample_layout 8 "KeyA" = Ok (mkDescription "A" 65 "KeyA" "A" 0) /\
  desc_text (mkDescription "A" 65 "KeyA" "A" 0) = "A".
Proof.
  split; [reflexivity|].
  exact (text_defaults_to_one_char_label sample_layout 8 "KeyA"
           (kd (Some "a") (Some "A") (Some 65) None (Some "KeyA") None None)
           (mkDescription "A" 65 "KeyA" "A" 0) eq_refl eq_refl eq_refl eq_refl eq_refl).
Defined.

Lemma text_blank_under_command_modifier (tbl : layout) (m : Z) (key : string)
    (d : description) :
  Z.land m (Z.lnot 8) <> 0 ->
  keyDescriptionForString tbl m key = Ok d -> desc_text d = "".
Proof.
  intros Hm Hd. unfold keyDescriptionForString in Hd.
  destruct (layout_get tbl key) as [def|]; [|discriminate].
  destruct (negb (keydef_truthy def)); [discriminate|].
  injection Hd as <-. cbn [desc_text].
  destruct (truthy_int (Z.land m (Z.lnot 8))) eqn:E; [reflexivity|].
  exfalso. apply Hm. unfold truthy_int in E. apply Z.eqb_eq.
  destruct (Z.land m (Z.lnot 8) =? 0); [reflexivity | discriminate].
Qed.

(** With Alt, Control or Meta held and no [text] option, [down] dispatches
    a ["rawKeyDown"] event with empty [text] and [unmodifiedText], whatever
    the key's definition says. *)
Theorem command_modifier_gives_raw_key_down (tbl : layout) (key : string)
    (o : key_options) (st : state) (d : description)
    (Hm : Z.land (kb_modifiers st) (Z.lnot 8) <> 0) (Hno : opt_text o = None)
    (Hd : keyDescriptionForString tbl (kb_modifiers st) key = Ok d) :
  exists p st',
    down tbl key o st = (Ok tt, st', [Send "Input.dispatchKeyEvent" (KeyDownEv p)]) /\
    kd_type p = "rawKeyDown" /\ kd_text p = "" /\ kd_unmodifiedText p = "".
Proof.
  pose proof (down_exact tbl key o st d Hd) as He. cbv zeta in He.
  rewrite Hno, (text_blank_under_command_modifier tbl (kb_modifiers st) key d Hm Hd) in He.
  do 2 eexists. split; [exact He|]. repeat split.
Qed.

Lemma command_modifier_gives_raw_key_down_witness :
  exists p st',
    down sample_layout "KeyA" no_options (set_modifiers 2 init_state) =
      (Ok tt, st', [Send "Input.dispatchKeyEvent" (KeyDownEv p)]) /\
    kd_type p = "rawKeyDown" /\ kd_text p = "" /\ kd_unmodifiedText p = "".
Proof.
  exact (command_modifier_gives_raw_key_down sample_layout "KeyA" no_options
           (set_modifiers 2 init_state) (mkDescription "a" 65 "KeyA" "" 0)
           ltac:(cbv; discriminate) eq_refl eq_refl).
Defined.
